(** * Bitbucket OAuth2 backend (social_auth/backends/bitbucket.py)

    A shallow embedding of [BitbucketBackend] and [BitbucketAuth]:
    the Python values that [simplejson] produces, the exceptions the
    module raises or catches, the outbound requests it issues through
    [dsa_urlopen], and the three methods that turn a raw profile into
    user details and a unique id.

    Conventions.
    - A Python [str] is a [string] of bytes (UTF-8).  The characters the
      code tests for (the space of [split(' ', 1)], the reserved
      characters of [urlencode]) are ASCII, and UTF-8 never uses an
      ASCII byte inside a longer sequence, so bytewise and
      characterwise processing agree.
    - A [dict] decoded from JSON is a [gmap string pyval]; the dict
      literal handed to [urlencode] is an association list in insertion
      order, since its iteration order decides the query string
      (Python 3.7 and later).
    - JSON numbers with a fraction or exponent (Python [float]) are not
      part of [pyval]. *)

From Stdlib Require Import Ascii.
From stdpp Require Import gmap strings list fin_maps pretty.

Local Open Scope string_scope.
Local Set Warnings "-register-all".

(** ** Python values and exceptions *)

Inductive pyval : Type :=
| PNone
| PBool (b : bool)
| PInt (z : Z)
| PStr (s : string)
| PList (l : list pyval)
| PDict (m : gmap string pyval).

(** The exception classes that occur: the two named by the handlers of
    this module, their relatives in [urllib] and [simplejson], and the
    ones raised by attribute access, subscripting, iteration and tuple
    unpacking. *)
Inductive exn : Type :=
| ValueError
| JSONDecodeError
| URLError
| HTTPError
| AttributeError
| KeyError
| TypeError.

#[global] Instance exn_eq_dec : EqDecision exn.
Proof. solve_decision. Defined.

(** [simplejson.JSONDecodeError] derives from [ValueError], and
    [urllib.error.HTTPError] from [urllib.error.URLError]. *)
Definition exn_base (e : exn) : option exn :=
  match e with
  | JSONDecodeError => Some ValueError
  | HTTPError => Some URLError
  | _ => None
  end.

Definition isinstance (e cls : exn) : bool :=
  bool_decide (e = cls) || bool_decide (exn_base e = Some cls).

(** [except (c1, ..., cn)] *)
Definition handles (classes : list exn) (e : exn) : bool :=
  existsb (isinstance e) classes.
Arguments handles : simpl never.

Inductive result (A : Type) : Type :=
| Ok (a : A)
| Raise (e : exn).
Arguments Ok {A} a.
Arguments Raise {A} e.

#[global] Instance result_ret : MRet result := λ A a, Ok a.
#[global] Instance result_bind : MBind result :=
  λ A B f r, match r with Ok a => f a | Raise e => Raise e end.

(** Truth value of an object, as tested by [if], [or] and [not]. *)
Definition truthy (v : pyval) : bool :=
  match v with
  | PNone => false
  | PBool b => b
  | PInt z => negb (Z.eqb z 0)
  | PStr s => negb (bool_decide (s = ""))
  | PList l => match l with [] => false | _ => true end
  | PDict m => match map_to_list m with [] => false | _ => true end
  end.

(** [a or b] *)
Definition py_or (a b : pyval) : pyval := if truthy a then a else b.

(** [v.get(k, d)]: only a dict has the method. *)
Definition py_get (v : pyval) (k : string) (d : pyval) : result pyval :=
  match v with
  | PDict m => Ok (default d (m !! k))
  | _ => Raise AttributeError
  end.

(** [v[k]] for a string key [k]. *)
Definition py_getitem (v : pyval) (k : string) : result pyval :=
  match v with
  | PDict m => match m !! k with Some x => Ok x | None => Raise KeyError end
  | _ => Raise TypeError
  end.

Fixpoint chars (s : string) : list string :=
  match s with
  | "" => []
  | String c r => String c "" :: chars r
  end.

(** The items a [for] loop visits.  A dict yields its keys and a
    string its characters; [None], booleans and integers are not
    iterable. *)
Definition py_iter (v : pyval) : result (list pyval) :=
  match v with
  | PList l => Ok l
  | PStr s => Ok (PStr <$> chars s)
  | PDict m => Ok (PStr <$> (map_to_list m).*1)
  | _ => Raise TypeError
  end.

(** [s.split(sep, maxsplit)] for a one-character separator; [None] is
    Python's default, no limit on the number of splits. *)
Fixpoint str_split (sep : ascii) (maxsplit : option nat) (s : string)
    {struct s} : list string :=
  match maxsplit, s with
  | Some 0, _ => [s]
  | _, "" => [""]
  | _, String c r =>
      if bool_decide (c = sep)
      then "" :: str_split sep (Nat.pred <$> maxsplit) r
      else match str_split sep maxsplit r with
           | h :: t => String c h :: t
           | [] => [String c ""]
           end
  end.

(** [v.split(sep, maxsplit)]: a method of [str] only. *)
Definition py_split (v : pyval) (sep : ascii) (maxsplit : option nat)
  : result (list string) :=
  match v with
  | PStr s => Ok (str_split sep maxsplit s)
  | _ => Raise AttributeError
  end.

(** [a, b = l] *)
Definition unpack2 {A : Type} (l : list A) : result (A * A) :=
  match l with
  | [a; b] => Ok (a, b)
  | _ => Raise ValueError
  end.

(** ** [urllib.parse]: [quote], [quote_plus], [urlencode] *)

Fixpoint str_contains (c : ascii) (s : string) : bool :=
  match s with
  | "" => false
  | String x r => bool_decide (x = c) || str_contains c r
  end.

(** Letters, digits and [_.-~] are never quoted. *)
Definition always_safe (c : ascii) : bool :=
  let n := N_of_ascii c in
  ((65 <=? n) && (n <=? 90) || (97 <=? n) && (n <=? 122)
   || (48 <=? n) && (n <=? 57))%N
  || str_contains c "_.-~".

Definition hex_digit (n : N) : ascii :=
  match n with
  | 0 => "0" | 1 => "1" | 2 => "2" | 3 => "3" | 4 => "4" | 5 => "5"
  | 6 => "6" | 7 => "7" | 8 => "8" | 9 => "9" | 10 => "A" | 11 => "B"
  | 12 => "C" | 13 => "D" | 14 => "E" | _ => "F"
  end%N%char.

(** The escape [%XX] of one byte. *)
Definition percent (c : ascii) : string :=
  let n := N_of_ascii c in
  String "%" (String (hex_digit (n / 16)) (String (hex_digit (n mod 16)) "")).

Fixpoint quote (safe : string) (s : string) : string :=
  match s with
  | "" => ""
  | String c r =>
      (if always_safe c || str_contains c safe then String c "" else percent c)
      +:+ quote safe r
  end.

Fixpoint str_replace (a b : ascii) (s : string) : string :=
  match s with
  | "" => ""
  | String c r => String (if bool_decide (c = a) then b else c) (str_replace a b r)
  end.

(** [quote_plus(s)] with the default [safe='']: when [s] has a space,
    the space is kept by [quote] and then replaced by [+]. *)
Definition quote_plus (s : string) : string :=
  if str_contains " " s then str_replace " " "+" (quote " " s)
  else quote "" s.

Fixpoint str_join (sep : string) (l : list string) : string :=
  match l with
  | [] => ""
  | [x] => x
  | x :: r => x +:+ sep +:+ str_join sep r
  end.

(** ** The environment: the provider, the JSON decoder, [repr] *)

(** What this module calls and does not define.  [respond] is the
    provider as seen through [dsa_urlopen]: given the requests issued so
    far and the URL of a GET, the body it answers with or the exception
    the call raises.  [simplejson_load] decodes a body ([JSONDecodeError]
    when it is not JSON).  [py_repr] prints lists and dicts, for [str]. *)
Record Env : Type := {
  respond : list string → string → result string;
  simplejson_load : string → result pyval;
  py_repr : pyval → string
}.

(** Computations that issue requests: the state is the log of the URLs
    requested so far, oldest first.  An exception keeps the log. *)
Definition io (A : Type) : Type := list string → result A * list string.

#[global] Instance io_ret : MRet io := λ A a h, (Ok a, h).
#[global] Instance io_bind : MBind io :=
  λ A B f m h,
    match m h with
    | (Ok a, h') => f a h'
    | (Raise e, h') => (Raise e, h')
    end.

Definition lift {A : Type} (r : result A) : io A := λ h, (r, h).

(** [try: body / except classes: handler] *)
Definition try_except {A : Type} (body : io A) (classes : list exn)
    (handler : io A) : io A :=
  λ h,
    match body h with
    | (Raise e, h') => if handles classes e then handler h' else (Raise e, h')
    | done => done
    end.

Section Backend.
Variable E : Env.

(** [str(v)] *)
Definition py_str (v : pyval) : string :=
  match v with
  | PStr s => s
  | PNone => "None"
  | PBool true => "True"
  | PBool false => "False"
  | PInt z => pretty z
  | _ => py_repr E v
  end.

(** [urlencode(query)] for a dict with [str] keys *)
Definition urlencode (query : list (string * pyval)) : string :=
  str_join "&"
    ((λ kv, quote_plus kv.1 +:+ "=" +:+ quote_plus (py_str kv.2)) <$> query).

(** [dsa_urlopen(url)]: a GET of [url], logged. *)
Definition dsa_urlopen (url : string) : io string :=
  λ h, (respond E h url, (h ++ [url])%list).

(** [simplejson.load(dsa_urlopen(url))] *)
Definition load_url (url : string) : io pyval :=
  body ← dsa_urlopen url; lift (simplejson_load E body).

(** *** Bitbucket configuration *)

Definition BITBUCKET_USER_DATA_URL : string :=
  "https://bitbucket.org/api/2.0/user/".

(** *** [BitbucketBackend] *)

Definition emails_url (access_token : pyval) : string :=
  BITBUCKET_USER_DATA_URL +:+ "/emails?" +:+
  urlencode [("fields", PStr "-values.links");
             ("pagelen", PInt 100);
             ("access_token", access_token)].

(** The loop of [_fetch_primary_email] over the items of [emails],
    with [primary = ''] before it. *)
Fixpoint scan_emails (emails : list pyval) : result pyval :=
  match emails with
  | [] => Ok (PStr "")
  | email :: rest =>
      flag ← py_get email "is_primary" (PBool false);
      if truthy flag then py_get email "email" (PStr "")
      else scan_emails rest
  end.

Definition _fetch_primary_email (access_token : pyval) : io pyval :=
  let url := emails_url access_token in
  emails ← try_except
             (data ← load_url url; lift (py_get data "values" (PList [])))
             [ValueError; HTTPError]
             (mret (PList []));
  items ← lift (py_iter emails);
  lift (scan_emails items).

(** [name = response.get('display_name') or ''] *)
Definition display_name (response : pyval) : result pyval :=
  d ← py_get response "display_name" PNone;
  mret (py_or d (PStr "")).

(** The [try]/[except ValueError]/[else] block of [get_user_details]:
    "Bitbucket doesn't separate first and last names. Let's try." *)
Definition split_name (name : pyval) (details : gmap string pyval)
  : result (gmap string pyval) :=
  match parts ← py_split name " " (Some 1); unpack2 parts with
  | Raise e =>
      if handles [ValueError] e
      then Ok (<["first_name" := name]> details)
      else Raise e
  | Ok (first_name, last_name) =>
      Ok (<["last_name" := PStr last_name]>
            (<["first_name" := PStr first_name]> details))
  end.

Definition get_user_details (response : pyval) : io (gmap string pyval) :=
  name ← lift (display_name response);
  username ← lift (py_get response "username" PNone);
  let details : gmap string pyval := {["username" := username]} in
  access_token ← lift (py_get response "access_token" PNone);
  email ← _fetch_primary_email access_token;
  let details := <["email" := email]> details in
  lift (split_name name details).

Definition get_user_id (details : gmap string pyval) (response : pyval)
  : result pyval :=
  py_getitem response "uuid".

(** *** [BitbucketAuth] *)

Definition user_data_url (access_token : pyval) : string :=
  BITBUCKET_USER_DATA_URL +:+ "?" +:+
  urlencode [("fields", PStr "-links"); ("access_token", access_token)].

Definition user_data (access_token : pyval) : io pyval :=
  let url := user_data_url access_token in
  try_except (load_url url) [ValueError] (mret PNone).

End Backend.

(** ** Reference notions the properties are stated against *)

(** An email record of the emails page: a dict whose [email] is a
    string and whose [is_primary] is a boolean. *)
Definition as_email_record (v : pyval) : option (string * bool) :=
  match v with
  | PDict m =>
      match m !! "email", m !! "is_primary" with
      | Some (PStr e), Some (PBool b) => Some (e, b)
      | _, _ => None
      end
  | _ => None
  end.

(** Splitting a name at its first run of whitespace: the text before
    the run, and the text after it. *)
Fixpoint before_whitespace (s : string) : string :=
  match s with
  | "" => ""
  | String c r => if Ascii.is_space c then "" else String c (before_whitespace r)
  end.

Fixpoint from_whitespace (s : string) : string :=
  match s with
  | "" => ""
  | String c r => if Ascii.is_space c then s else from_whitespace r
  end.

Fixpoint skip_whitespace (s : string) : string :=
  match s with
  | "" => ""
  | String c r => if Ascii.is_space c then skip_whitespace r else s
  end.

Definition split_first_whitespace_run (s : string) : string * string :=
  (before_whitespace s, skip_whitespace (from_whitespace s)).

(** [n] spaces *)
Fixpoint spaces (n : nat) : string :=
  match n with
  | 0 => ""
  | S k => String " " (spaces k)
  end.

(** What [quote_plus] does to one byte: a safe byte is kept, a space
    becomes [+], any other byte is escaped. *)
Definition quote_plus_char (c : ascii) : string :=
  if always_safe c then String c ""
  else if bool_decide (c = " "%char) then "+"
  else percent c.

Fixpoint quote_plus_chars (s : string) : string :=
  match s with
  | "" => ""
  | String c r => quote_plus_char c +:+ quote_plus_chars r
  end.

Fixpoint str_forall (p : ascii → bool) (s : string) : bool :=
  match s with
  | "" => true
  | String c r => p c && str_forall p r
  end.

(** Reading a query string back (application/x-www-form-urlencoded):
    fields are separated by [&], a name from its value by the first
    [=], [+] stands for a space and [%XX] for a byte. *)
Definition hex_value (c : ascii) : option N :=
  let n := N_of_ascii c in
  if ((48 <=? n) && (n <=? 57))%N then Some (n - 48)%N
  else if ((65 <=? n) && (n <=? 70))%N then Some (n - 55)%N
  else if ((97 <=? n) && (n <=? 102))%N then Some (n - 87)%N
  else None.

Fixpoint unquote_plus (s : string) : string :=
  match s with
  | "" => ""
  | String c r =>
      if bool_decide (c = "+"%char) then String " " (unquote_plus r)
      else if bool_decide (c = "%"%char) then
        match r with
        | String a (String b r') =>
            match hex_value a, hex_value b with
            | Some x, Some y => String (ascii_of_N (16 * x + y)) (unquote_plus r')
            | _, _ => String c (unquote_plus r)
            end
        | _ => String c (unquote_plus r)
        end
      else String c (unquote_plus r)
  end.

Definition query_field (piece : string) : option (string * string) :=
  if bool_decide (piece = "") then None
  else match str_split "=" (Some 1) piece with
       | [k; v] => Some (unquote_plus k, unquote_plus v)
       | _ => Some (unquote_plus piece, "")
       end.

Definition query_params (q : string) : list (string * string) :=
  omap query_field (str_split "&" None q).

(** The part of a URL after its first [?]. *)
Definition url_query (url : string) : string :=
  match str_split "?" (Some 1) url with
  | [_; q] => q
  | _ => ""
  end.

(** ** Sample environments *)

(** A provider that gives every request the same outcome, with a
    decoder that gives every body the same outcome. *)
Definition const_env (answer : result string) (decoded : result pyval) : Env :=
  {| respond := λ _ _, answer;
     simplejson_load := λ _, decoded;
     py_repr := λ _, "" |}.

(** A provider whose first answer is an emails page and which fails
    with an HTTP error from the second request on. *)
Definition once_env (decoded : result pyval) : Env :=
  {| respond := λ h _, match h with [] => Ok "page" | _ => Raise HTTPError end;
     simplejson_load := λ _, decoded;
     py_repr := λ _, "" |}.

Definition email_record (e : string) (primary : bool) : pyval :=
  PDict (<["email" := PStr e]> (<["is_primary" := PBool primary]> ∅)).

Definition emails_page (records : list pyval) : pyval :=
  PDict {["values" := PList records]}.

Definition grace_records : list pyval :=
  [email_record "g@x.com" false; email_record "grace@x.com" true].

Definition grace_emails : pyval := emails_page grace_records.

Definition profile (fields : list (string * pyval)) : gmap string pyval :=
  list_to_map fields.

Definition grace_profile : gmap string pyval :=
  profile [("username", PStr "grace"); ("uuid", PStr "abc-123");
           ("display_name", PStr "Grace Hopper");
           ("access_token", PStr "s3cr3t")].

(** The provider of the end-to-end scenario: every request is answered
    with Grace's emails page. *)
Definition grace_env : Env := const_env (Ok "page") (Ok grace_emails).

Definition grace_emails_url : string :=
  "https://bitbucket.org/api/2.0/user//emails?fields=-values.links&pagelen=100&access_token=s3cr3t".

(** A profile that is complete but for its display name. *)
Definition named (display : pyval) : gmap string pyval :=
  <["display_name" := display]> grace_profile.

(** The details [get_user_details] builds, key by key. *)
Definition details_of (username email first_name : pyval)
    (last_name : option pyval) : gmap string pyval :=
  let d : gmap string pyval :=
    <["first_name" := first_name]>
      (<["email" := email]> {["username" := username]}) in
  match last_name with
  | Some l => <["last_name" := l]> d
  | None => d
  end.

(** ** Notions for the behaviour at the edges *)

(** The outcome of [simplejson.load(dsa_urlopen(url))] when the log of
    requests is [h]. *)
Definition fetched (E : Env) (url : string) (h : list string) : result pyval :=
  respond E h url ≫= simplejson_load E.

Definition is_dict (v : pyval) : bool :=
  match v with PDict _ => true | _ => false end.

Definition is_str (v : pyval) : bool :=
  match v with PStr _ => true | _ => false end.

(** The values a [for] loop accepts. *)
Definition iterable (v : pyval) : bool :=
  match v with PList _ | PStr _ | PDict _ => true | _ => false end.

(** An item the loop of [_fetch_primary_email] passes over: a dict
    whose [is_primary] is absent or not true in the sense of [if]. *)
Definition not_primary (v : pyval) : bool :=
  match v with
  | PDict m => negb (truthy (default (PBool false) (m !! "is_primary")))
  | _ => false
  end.

(** [first_name] and [last_name] put together again, with a space. *)
Definition full_name (details : gmap string pyval) : option string :=
  match details !! "first_name", details !! "last_name" with
  | Some (PStr f), Some (PStr l) => Some (f +:+ " " +:+ l)
  | Some (PStr f), None => Some f
  | _, _ => None
  end.

(** The token that [get_user_details] hands to [_fetch_primary_email]. *)
Definition token_of (m : gmap string pyval) : pyval :=
  default PNone (m !! "access_token").

(** An emails page with entries of several kinds: a dict without
    [is_primary], one with a zero flag, one whose flag is the number 1
    and which has no [email], a string, and a regular record. *)
Definition mixed_records : list pyval :=
  [PDict {["email" := PStr "a@x.com"]};
   PDict (<["email" := PStr "b@x.com"]> {["is_primary" := PInt 0]});
   PDict {["is_primary" := PInt 1]};
   PStr "oops";
   email_record "c@x.com" true].

(** A provider whose every answer decodes to [page]. *)
Definition page_env (page : pyval) : Env := const_env (Ok "page") (Ok page).

(** A provider whose every request fails with [e]. *)
Definition failing_env (e : exn) : Env := const_env (Raise e) (Ok PNone).

Definition grace_user_data_url : string :=
  "https://bitbucket.org/api/2.0/user/?fields=-links&access_token=s3cr3t".

(** Case analysis on the 256 bytes. *)
Ltac each_byte c := destruct c as [[] [] [] [] [] [] [] []].

(** * Properties *)

(** ** Exceptions and the two fetches *)

Lemma handles_value_http (e : exn) :
  handles [ValueError; HTTPError] e
  = bool_decide (e = ValueError ∨ e = JSONDecodeError ∨ e = HTTPError).
Proof. destruct e; reflexivity. Qed.

Lemma handles_value (e : exn) :
  handles [ValueError] e = isinstance e ValueError.
Proof. destruct e; reflexivity. Qed.

(** [_fetch_primary_email] issues one request; its outcome is decided by
    the answer, the decoder and the scan. *)
Lemma fetch_primary_email_unfold (E : Env) (tok : pyval) (h : list string) :
  _fetch_primary_email E tok h =
  (match respond E h (emails_url E tok) ≫= simplejson_load E with
   | Raise e => if handles [ValueError; HTTPError] e then Ok (PStr "") else Raise e
   | Ok data =>
       emails ← py_get data "values" (PList []);
       items ← py_iter emails;
       scan_emails items
   end, (h ++ [emails_url E tok])%list).
Proof.
  unfold _fetch_primary_email, try_except, load_url, dsa_urlopen, lift.
  unfold mbind at 1 2 3 4; unfold io_bind.
  destruct (respond E h (emails_url E tok)) as [body|e]; simpl.
  - destruct (simplejson_load E body) as [data|e]; simpl.
    + destruct data; simpl; try reflexivity.
      destruct (py_iter _); reflexivity.
    + destruct e; reflexivity.
  - destruct e; reflexivity.
Qed.

Lemma user_data_unfold (E : Env) (tok : pyval) (h : list string) :
  user_data E tok h =
  (match respond E h (user_data_url E tok) ≫= simplejson_load E with
   | Raise e => if handles [ValueError] e then Ok PNone else Raise e
   | Ok data => Ok data
   end, (h ++ [user_data_url E tok])%list).
Proof.
  unfold user_data, try_except, load_url, dsa_urlopen, lift.
  unfold mbind at 1; unfold io_bind.
  destruct (respond E h (user_data_url E tok)) as [body|e]; simpl.
  - destruct (simplejson_load E body) as [data|e]; simpl; [reflexivity|].
    destruct e; reflexivity.
  - destruct e; reflexivity.
Qed.

Lemma get_user_details_dict (E : Env) (m : gmap string pyval) (h : list string) :
  get_user_details E (PDict m) h =
  match _fetch_primary_email E (default PNone (m !! "access_token")) h with
  | (Ok email, h') =>
      (split_name (py_or (default PNone (m !! "display_name")) (PStr ""))
         (<["email" := email]> {["username" := default PNone (m !! "username")]}),
       h')
  | (Raise e, h') => (Raise e, h')
  end.
Proof.
  unfold get_user_details, display_name, lift; simpl.
  unfold mbind at 1 2 3 4; unfold io_bind; simpl.
  destruct (_fetch_primary_email E _ h) as [[email|e] h']; reflexivity.
Qed.

Lemma get_user_details_not_dict (E : Env) (response : pyval) (h : list string) :
  (∀ m, response ≠ PDict m) →
  get_user_details E response h = (Raise AttributeError, h).
Proof.
  intros Hnd. destruct response; try reflexivity. by destruct (Hnd m).
Qed.

(** ** Splitting strings *)

Lemma app_String (c : ascii) (s t : string) :
  String c s +:+ t = String c (s +:+ t).
Proof. reflexivity. Qed.

Lemma app_empty (t : string) : "" +:+ t = t.
Proof. reflexivity. Qed.

Lemma str_split_nonempty (sep : ascii) (m : option nat) (s : string) :
  str_split sep m s ≠ [].
Proof.
  destruct s as [|c r]; destruct m as [[|n]|]; simpl; try done.
  all: case_bool_decide; [done|]; by destruct (str_split sep _ r).
Qed.

Lemma str_split_no_sep (sep : ascii) (m : option nat) (s : string) :
  str_contains sep s = false → str_split sep m s = [s].
Proof.
  induction s as [|c r IH]; intros Hc.
  - by destruct m as [[|n]|].
  - simpl in Hc. apply orb_false_iff in Hc as [Hne Hr].
    destruct m as [[|n]|]; [done| |]; simpl; rewrite Hne, (IH Hr); done.
Qed.

Lemma str_split_at_sep (sep : ascii) (m : option nat) (a b : string) :
  m ≠ Some 0 →
  str_contains sep a = false →
  str_split sep m (a +:+ String sep b) = a :: str_split sep (Nat.pred <$> m) b.
Proof.
  intros Hm. induction a as [|c r IH]; intros Hc.
  - rewrite app_empty. destruct m as [[|n]|]; [done| |]; simpl;
      by rewrite bool_decide_eq_true_2.
  - simpl in Hc. apply orb_false_iff in Hc as [Hne Hr].
    rewrite app_String.
    destruct m as [[|n]|]; [done| |]; simpl; rewrite Hne, (IH Hr); done.
Qed.

Lemma str_contains_split (sep : ascii) (s : string) :
  str_contains sep s = true →
  ∃ a b, s = a +:+ String sep b ∧ str_contains sep a = false.
Proof.
  induction s as [|c r IH]; [done|]. simpl. intros Hc.
  destruct (bool_decide (c = sep)) eqn:Hd.
  - apply bool_decide_eq_true_1 in Hd as ->. by exists "", r.
  - destruct (IH Hc) as (a & b & -> & Ha).
    exists (String c a), b. split; [done|]. simpl. by rewrite Hd.
Qed.

Lemma str_contains_app (c : ascii) (a b : string) :
  str_contains c (a +:+ b) = str_contains c a || str_contains c b.
Proof.
  induction a as [|x r IH]; [done|].
  rewrite app_String. simpl. by rewrite IH, orb_assoc.
Qed.

(** [s.split(' ', 1)] has two parts exactly when [s] has a space: the
    text before the first space and everything after it. *)
Lemma split_once_cases (sep : ascii) (s : string) :
  (str_contains sep s = false ∧ str_split sep (Some 1) s = [s])
  ∨ (∃ a b, s = a +:+ String sep b ∧ str_contains sep a = false
            ∧ str_contains sep s = true
            ∧ str_split sep (Some 1) s = [a; b]).
Proof.
  destruct (str_contains sep s) eqn:Hc.
  - right. destruct (str_contains_split _ _ Hc) as (a & b & -> & Ha).
    exists a, b. repeat split; [done|].
    rewrite str_split_at_sep by done. simpl. by destruct b.
  - left. by rewrite str_split_no_sep.
Qed.

Lemma app_sep_inj (sep : ascii) (a b a' b' : string) :
  str_contains sep a = false → str_contains sep a' = false →
  a +:+ String sep b = a' +:+ String sep b' → a = a' ∧ b = b'.
Proof.
  revert a'. induction a as [|c r IH]; intros [|c' r'] Ha Ha' Heq;
    rewrite ?app_String, ?app_empty in Heq; simpl in *.
  - by simplify_eq.
  - simplify_eq. by rewrite bool_decide_eq_true_2 in Ha'.
  - simplify_eq. by rewrite bool_decide_eq_true_2 in Ha.
  - apply orb_false_iff in Ha as [_ Ha]. apply orb_false_iff in Ha' as [_ Ha'].
    simplify_eq. destruct (IH r' Ha Ha' ltac:(done)) as [-> ->]. done.
Qed.

Lemma split_name_str (s : string) (d : gmap string pyval) :
  split_name (PStr s) d =
  match str_split " " (Some 1) s with
  | [a; b] => Ok (<["last_name" := PStr b]> (<["first_name" := PStr a]> d))
  | _ => Ok (<["first_name" := PStr s]> d)
  end.
Proof.
  unfold split_name. simpl.
  destruct (str_split " " (Some 1) s) as [|a [|b [|c l]]]; reflexivity.
Qed.

Lemma split_name_not_str (name : pyval) (d : gmap string pyval) :
  (∀ s, name ≠ PStr s) → split_name name d = Raise AttributeError.
Proof. intros Hn. destruct name; try reflexivity. by destruct (Hn s). Qed.

(** What a successful [get_user_details] returned, for a string name. *)
Lemma get_user_details_ok (E : Env) (response : pyval) (h h' : list string)
    (s : string) (details : gmap string pyval) :
  display_name response = Ok (PStr s) →
  get_user_details E response h = (Ok details, h') →
  ∃ username email,
    details = details_of username email
                (PStr (match str_split " " (Some 1) s with [a; _] => a | _ => s end))
                (match str_split " " (Some 1) s with [_; b] => Some (PStr b) | _ => None end).
Proof.
  intros Hname Hrun. destruct response; try done.
  rewrite get_user_details_dict in Hrun.
  unfold display_name in Hname. simpl in Hname. injection Hname as Hname.
  rewrite Hname in Hrun.
  destruct (_fetch_primary_email E _ h) as [[email|e] h'']; [|done].
  rewrite split_name_str in Hrun.
  exists (default PNone (m !! "username")), email.
  destruct (str_split " " (Some 1) s) as [|a [|b [|c l]]]; by simplify_eq.
Qed.

(** ** The primary email *)

Lemma scan_emails_records (values : list pyval) (recs : list (string * bool)) :
  Forall2 (λ v r, as_email_record v = Some r) values recs →
  ∃ e, scan_emails values = Ok (PStr e) ∧
       ((∃ i, recs !! i = Some (e, true)
              ∧ ∀ j r, j < i → recs !! j = Some r → r.2 = false)
        ∨ (e = "" ∧ ∀ r, r ∈ recs → r.2 = false)).
Proof.
  induction 1 as [|v [e0 b] values recs Hv _ IH].
  - exists "". split; [done|]. right. split; [done|]. intros r Hr. inversion Hr.
  - destruct v as [| | | | |m]; try done. simpl in Hv.
    destruct (m !! "email") as [[| | |s| |]|] eqn:Hemail; try done.
    destruct (m !! "is_primary") as [[|b'| | | |]|] eqn:Hflag; try done.
    simplify_eq. simpl. rewrite Hflag. simpl. destruct b; simpl.
    + exists e0. rewrite Hemail. split; [done|]. left. exists 0.
      split; [done|]. intros j r Hj. lia.
    + destruct IH as (e & Hscan & [(i & Hi & Hbefore)|[-> Hnone]]).
      * exists e. split; [done|]. left. exists (S i). split; [done|].
        intros [|j] r Hj Hr; simpl in Hr; [by simplify_eq|].
        apply (Hbefore j); [lia|done].
      * exists "". split; [done|]. right. split; [done|].
        intros r Hr. apply elem_of_cons in Hr as [->|Hr]; [done|by apply Hnone].
Qed.

(** C1.  When the emails page is a list of email records,
    [_fetch_primary_email] returns the [email] of the first record, in
    the order of the response, whose [is_primary] is true, and the empty
    string when no record is primary. *)
Theorem fetch_primary_email_first_primary (E : Env) (tok : pyval)
    (h : list string) (body : string) (d : gmap string pyval)
    (values : list pyval) (recs : list (string * bool)) :
  respond E h (emails_url E tok) = Ok body →
  simplejson_load E body = Ok (PDict d) →
  d !! "values" = Some (PList values) →
  mapM as_email_record values = Some recs →
  ∃ e, _fetch_primary_email E tok h
       = (Ok (PStr e), (h ++ [emails_url E tok])%list) ∧
       ((∃ i, recs !! i = Some (e, true)
              ∧ ∀ j r, j < i → recs !! j = Some r → r.2 = false)
        ∨ (e = "" ∧ ∀ r, r ∈ recs → r.2 = false)).
Proof.
  intros Hbody Hload Hvalues Hrecs.
  apply mapM_Some in Hrecs.
  destruct (scan_emails_records _ _ Hrecs) as (e & Hscan & Hfirst).
  exists e. split; [|done].
  rewrite fetch_primary_email_unfold, Hbody. simpl. rewrite Hload. simpl.
  by rewrite Hvalues; simpl; rewrite Hscan.
Qed.

Lemma fetch_primary_email_first_primary_witness :
  respond grace_env [] (emails_url grace_env (PStr "s3cr3t")) = Ok "page"
  ∧ simplejson_load grace_env "page" = Ok (PDict {["values" := PList grace_records]})
  ∧ ({["values" := PList grace_records]} : gmap string pyval) !! "values"
    = Some (PList grace_records)
  ∧ mapM as_email_record grace_records
    = Some [("g@x.com", false); ("grace@x.com", true)]
  ∧ ∃ e, _fetch_primary_email grace_env (PStr "s3cr3t") []
         = (Ok (PStr e), ([] ++ [emails_url grace_env (PStr "s3cr3t")])%list) ∧
         ((∃ i, [("g@x.com", false); ("grace@x.com", true)] !! i = Some (e, true)
                ∧ ∀ j r, j < i →
                    [("g@x.com", false); ("grace@x.com", true)] !! j = Some r →
                    r.2 = false)
          ∨ (e = "" ∧ ∀ r, r ∈ [("g@x.com", false); ("grace@x.com", true)] →
                       r.2 = false)).
Proof.
  split; [reflexivity|]. split; [reflexivity|].
  split; [vm_compute; reflexivity|]. split; [vm_compute; reflexivity|].
  apply (fetch_primary_email_first_primary grace_env (PStr "s3cr3t") [] "page"
           {["values" := PList grace_records]} grace_records
           [("g@x.com", false); ("grace@x.com", true)]).
  - reflexivity.
  - reflexivity.
  - vm_compute; reflexivity.
  - vm_compute; reflexivity.
Defined.

(** The scenario of the specification, run. *)
Example grace_email :
  _fetch_primary_email grace_env (PStr "s3cr3t") []
  = (Ok (PStr "grace@x.com"), [grace_emails_url]).
Proof. vm_compute. reflexivity. Qed.

Example grace_details :
  get_user_details grace_env (PDict grace_profile) []
  = (Ok (details_of (PStr "grace") (PStr "grace@x.com") (PStr "Grace")
           (Some (PStr "Hopper"))),
     [grace_emails_url]).
Proof. vm_compute. reflexivity. Qed.

Example grace_id :
  get_user_id ∅ (PDict grace_profile) = Ok (PStr "abc-123").
Proof. vm_compute. reflexivity. Qed.

(** C3 (as amended).  When the email sub-call fails, in the request or
    in decoding the body, with an exception that is a [ValueError] (a
    [JSONDecodeError] is one) or an [HTTPError], [_fetch_primary_email]
    returns the empty string; an exception of any other class is
    propagated to the caller. *)
Theorem fetch_primary_email_failure (E : Env) (tok : pyval) (h : list string)
    (e : exn) :
  (respond E h (emails_url E tok) = Raise e
   ∨ ∃ body, respond E h (emails_url E tok) = Ok body
             ∧ simplejson_load E body = Raise e) →
  _fetch_primary_email E tok h
  = (if isinstance e ValueError || isinstance e HTTPError
     then Ok (PStr "") else Raise e,
     (h ++ [emails_url E tok])%list).
Proof.
  intros Hfail. rewrite fetch_primary_email_unfold.
  assert (respond E h (emails_url E tok) ≫= simplejson_load E = Raise e) as ->.
  { destruct Hfail as [->|(body & -> & Hload)]; [done|]. simpl. by rewrite Hload. }
  by destruct e.
Qed.

Lemma fetch_primary_email_failure_witness :
  (respond (const_env (Ok "<html>") (Raise JSONDecodeError)) []
     (emails_url (const_env (Ok "<html>") (Raise JSONDecodeError)) (PStr "s3cr3t"))
   = Raise JSONDecodeError
   ∨ ∃ body,
       respond (const_env (Ok "<html>") (Raise JSONDecodeError)) []
         (emails_url (const_env (Ok "<html>") (Raise JSONDecodeError)) (PStr "s3cr3t"))
       = Ok body
       ∧ simplejson_load (const_env (Ok "<html>") (Raise JSONDecodeError)) body
         = Raise JSONDecodeError)
  ∧ _fetch_primary_email (const_env (Ok "<html>") (Raise JSONDecodeError))
      (PStr "s3cr3t") []
    = (Ok (PStr ""), [grace_emails_url]).
Proof.
  split.
  - right. exists "<html>". split; reflexivity.
  - apply (fetch_primary_email_failure
             (const_env (Ok "<html>") (Raise JSONDecodeError)) (PStr "s3cr3t") []
             JSONDecodeError).
    right. exists "<html>". split; reflexivity.
Defined.

(** C3, as stated, fails: a request that fails with a [URLError] (the
    provider cannot be reached) is a failure of the sub-call, and the
    error is propagated instead of the empty string being returned. *)
Lemma fetch_primary_email_propagates_URLError :
  respond (const_env (Raise URLError) (Ok grace_emails)) []
    (emails_url (const_env (Raise URLError) (Ok grace_emails)) (PStr "s3cr3t"))
  = Raise URLError
  ∧ _fetch_primary_email (const_env (Raise URLError) (Ok grace_emails))
      (PStr "s3cr3t") []
    = (Raise URLError, [grace_emails_url])
  ∧ get_user_details (const_env (Raise URLError) (Ok grace_emails))
      (PDict grace_profile) []
    = (Raise URLError, [grace_emails_url]).
Proof. repeat split; vm_compute; reflexivity. Qed.

(** An HTTP error status, on the other hand, degrades to the empty
    string, and the details are built without an email. *)
Example http_error_degrades :
  get_user_details (const_env (Raise HTTPError) (Ok grace_emails))
    (PDict grace_profile) []
  = (Ok (details_of (PStr "grace") (PStr "") (PStr "Grace") (Some (PStr "Hopper"))),
     [grace_emails_url]).
Proof. vm_compute. reflexivity. Qed.

(** ** The profile *)

(** C4.  When the body of the profile response is not JSON, so that
    [simplejson.load] raises a [ValueError] such as [JSONDecodeError],
    [user_data] returns [None] and raises nothing. *)
Theorem user_data_malformed_body (E : Env) (tok : pyval) (h : list string)
    (body : string) (e : exn) :
  respond E h (user_data_url E tok) = Ok body →
  simplejson_load E body = Raise e →
  isinstance e ValueError = true →
  user_data E tok h = (Ok PNone, (h ++ [user_data_url E tok])%list).
Proof.
  intros Hbody Hload He. rewrite user_data_unfold, Hbody. simpl.
  by rewrite Hload, handles_value, He.
Qed.

Lemma user_data_malformed_body_witness :
  respond (const_env (Ok "<html>") (Raise JSONDecodeError)) []
    (user_data_url (const_env (Ok "<html>") (Raise JSONDecodeError)) (PStr "s3cr3t"))
  = Ok "<html>"
  ∧ simplejson_load (const_env (Ok "<html>") (Raise JSONDecodeError)) "<html>"
    = Raise JSONDecodeError
  ∧ isinstance JSONDecodeError ValueError = true
  ∧ user_data (const_env (Ok "<html>") (Raise JSONDecodeError)) (PStr "s3cr3t") []
    = (Ok PNone,
       ([] ++ [user_data_url (const_env (Ok "<html>") (Raise JSONDecodeError))
                 (PStr "s3cr3t")])%list).
Proof.
  split; [reflexivity|]. split; [reflexivity|]. split; [reflexivity|].
  apply (user_data_malformed_body
           (const_env (Ok "<html>") (Raise JSONDecodeError)) (PStr "s3cr3t") []
           "<html>" JSONDecodeError); reflexivity.
Defined.

(** ** The unique id *)

(** C2 (as amended).  On a raw profile without [uuid], [get_user_id]
    raises [KeyError].  [get_user_details] does not read [uuid]: on such
    a profile it does what it does on the same profile with a [uuid]
    added, so the failure belongs to [get_user_id] alone. *)
Theorem missing_uuid (E : Env) (m : gmap string pyval) :
  m !! "uuid" = None →
  (∀ details, get_user_id details (PDict m) = Raise KeyError)
  ∧ (∀ v h, get_user_details E (PDict (<["uuid" := v]> m)) h
            = get_user_details E (PDict m) h).
Proof.
  intros Hm. split.
  - intros details. unfold get_user_id. simpl. by rewrite Hm.
  - intros v h. rewrite !get_user_details_dict.
    by rewrite !lookup_insert_ne.
Qed.

Lemma missing_uuid_witness :
  delete "uuid" grace_profile !! "uuid" = None
  ∧ (∀ details, get_user_id details (PDict (delete "uuid" grace_profile))
                = Raise KeyError)
  ∧ (∀ v h, get_user_details grace_env
              (PDict (<["uuid" := v]> (delete "uuid" grace_profile))) h
            = get_user_details grace_env (PDict (delete "uuid" grace_profile)) h).
Proof.
  split; [vm_compute; reflexivity|].
  apply (missing_uuid grace_env (delete "uuid" grace_profile)).
  vm_compute; reflexivity.
Defined.

(** C2, as stated, fails: on a profile whose other fields are valid and
    which has no [uuid], [get_user_details] returns the details. *)
Lemma get_user_details_without_uuid :
  delete "uuid" grace_profile !! "uuid" = None
  ∧ get_user_details grace_env (PDict (delete "uuid" grace_profile)) []
    = (Ok (details_of (PStr "grace") (PStr "grace@x.com") (PStr "Grace")
             (Some (PStr "Hopper"))),
       [grace_emails_url]).
Proof. split; vm_compute; reflexivity. Qed.

(** C7 (as amended).  [get_user_id] succeeds exactly on a profile that
    has a [uuid], and then returns the value stored there as it is,
    with no check that it is a non-empty string; a profile without
    [uuid] gives [KeyError] and no default. *)
Theorem get_user_id_verbatim (details : gmap string pyval) (response : pyval) :
  (∀ v, get_user_id details response = Ok v
        ↔ ∃ m, response = PDict m ∧ m !! "uuid" = Some v)
  ∧ (∀ m, response = PDict m → m !! "uuid" = None →
          get_user_id details response = Raise KeyError).
Proof.
  unfold get_user_id. split.
  - intros v. split.
    + destruct response as [| | | | |m]; try done. simpl.
      destruct (m !! "uuid") eqn:Hm; [|done]. intros [= ->]. by exists m.
    + intros (m & -> & Hm). simpl. by rewrite Hm.
  - intros m -> Hm. simpl. by rewrite Hm.
Qed.

(** C7, as stated, fails: with an empty [uuid] both methods succeed and
    the unique id is the empty string. *)
Lemma get_user_id_empty :
  get_user_details grace_env (PDict (<["uuid" := PStr ""]> grace_profile)) []
  = (Ok (details_of (PStr "grace") (PStr "grace@x.com") (PStr "Grace")
           (Some (PStr "Hopper"))),
     [grace_emails_url])
  ∧ get_user_id
      (details_of (PStr "grace") (PStr "grace@x.com") (PStr "Grace")
         (Some (PStr "Hopper")))
      (PDict (<["uuid" := PStr ""]> grace_profile))
    = Ok (PStr "").
Proof. split; vm_compute; reflexivity. Qed.

(** ** First and last name *)

Lemma details_of_first_name (u e f : pyval) (l : option pyval) :
  details_of u e f l !! "first_name" = Some f.
Proof. destruct l; by simplify_map_eq. Qed.

Lemma details_of_last_name (u e f : pyval) (l : option pyval) :
  details_of u e f l !! "last_name" = l.
Proof. destruct l; by simplify_map_eq. Qed.

Lemma str_split_zero (sep : ascii) (s : string) :
  str_split sep (Some 0) s = [s].
Proof. by destruct s. Qed.

(** C5 (as amended).  [get_user_details] splits the display name at its
    first space character, one space and not a run of whitespace: the
    text before that space is [first_name] and everything after it,
    further spaces included, is [last_name]; a name without a space
    character is [first_name] as a whole and no [last_name] is set. *)
Theorem split_at_first_space (E : Env) (response : pyval) (h h' : list string)
    (s : string) (details : gmap string pyval) :
  display_name response = Ok (PStr s) →
  get_user_details E response h = (Ok details, h') →
  (∀ a b, s = a +:+ " " +:+ b → str_contains " " a = false →
          details !! "first_name" = Some (PStr a)
          ∧ details !! "last_name" = Some (PStr b))
  ∧ (str_contains " " s = false →
     details !! "first_name" = Some (PStr s) ∧ details !! "last_name" = None).
Proof.
  intros Hname Hrun.
  destruct (get_user_details_ok _ _ _ _ _ _ Hname Hrun) as (u & e & ->).
  rewrite details_of_first_name, details_of_last_name. split.
  - intros a b -> Ha. change (" " +:+ b) with (String " " b).
    rewrite (str_split_at_sep " " (Some 1) a b) by done.
    simpl. by rewrite str_split_zero.
  - intros Hs. by rewrite str_split_no_sep.
Qed.

Lemma split_at_first_space_witness :
  display_name (PDict (named (PStr "Ada Lovelace"))) = Ok (PStr "Ada Lovelace")
  ∧ get_user_details grace_env (PDict (named (PStr "Ada Lovelace"))) []
    = (Ok (details_of (PStr "grace") (PStr "grace@x.com") (PStr "Ada")
             (Some (PStr "Lovelace"))),
       [grace_emails_url])
  ∧ details_of (PStr "grace") (PStr "grace@x.com") (PStr "Ada")
      (Some (PStr "Lovelace")) !! "first_name" = Some (PStr "Ada")
  ∧ details_of (PStr "grace") (PStr "grace@x.com") (PStr "Ada")
      (Some (PStr "Lovelace")) !! "last_name" = Some (PStr "Lovelace").
Proof.
  split; [vm_compute; reflexivity|]. split; [vm_compute; reflexivity|].
  apply (split_at_first_space grace_env (PDict (named (PStr "Ada Lovelace")))
           [] [grace_emails_url] "Ada Lovelace"); [vm_compute; reflexivity..| |];
    reflexivity.
Defined.

Example madonna :
  get_user_details grace_env (PDict (named (PStr "Madonna"))) []
  = (Ok (details_of (PStr "grace") (PStr "grace@x.com") (PStr "Madonna") None),
     [grace_emails_url]).
Proof. vm_compute. reflexivity. Qed.

(** C5, as stated, fails: in a name with two spaces between its words
    the run of whitespace is not skipped, and [last_name] begins with
    the second space; a tab does not split the name at all. *)
Lemma split_keeps_rest_of_whitespace_run :
  get_user_details grace_env (PDict (named (PStr "Ada  Lovelace"))) []
  = (Ok (details_of (PStr "grace") (PStr "grace@x.com") (PStr "Ada")
           (Some (PStr " Lovelace"))),
     [grace_emails_url])
  ∧ split_first_whitespace_run "Ada  Lovelace" = ("Ada", "Lovelace")
  ∧ " Lovelace" ≠ "Lovelace"
  ∧ get_user_details grace_env
      (PDict (named (PStr (String "A" (String "009" "L"))))) []
    = (Ok (details_of (PStr "grace") (PStr "grace@x.com")
             (PStr (String "A" (String "009" "L"))) None),
       [grace_emails_url])
  ∧ split_first_whitespace_run (String "A" (String "009" "L")) = ("A", "L").
Proof. repeat split; try (vm_compute; reflexivity). discriminate. Qed.

(** C6 (as amended).  For a display name of spaces only, such as two
    spaces, [first_name] is empty and [last_name] is the spaces after
    the first one, a single space for two: the code trims nothing.  The
    two fields depend on the display name alone. *)
Theorem spaces_only_name (E : Env) (response : pyval) (h h' : list string)
    (n : nat) (details : gmap string pyval) :
  display_name response = Ok (PStr (spaces (S n))) →
  get_user_details E response h = (Ok details, h') →
  details !! "first_name" = Some (PStr "")
  ∧ details !! "last_name" = Some (PStr (spaces n)).
Proof.
  intros Hname Hrun.
  destruct (get_user_details_ok _ _ _ _ _ _ Hname Hrun) as (u & e & ->).
  rewrite details_of_first_name, details_of_last_name.
  change (spaces (S n)) with ("" +:+ String " " (spaces n)).
  rewrite (str_split_at_sep " " (Some 1) "" (spaces n)) by done.
  simpl. by rewrite str_split_zero.
Qed.

Lemma spaces_only_name_witness :
  display_name (PDict (named (PStr "  "))) = Ok (PStr (spaces 2))
  ∧ get_user_details grace_env (PDict (named (PStr "  "))) []
    = (Ok (details_of (PStr "grace") (PStr "grace@x.com") (PStr "")
             (Some (PStr " "))),
       [grace_emails_url])
  ∧ details_of (PStr "grace") (PStr "grace@x.com") (PStr "")
      (Some (PStr " ")) !! "first_name" = Some (PStr "")
  ∧ details_of (PStr "grace") (PStr "grace@x.com") (PStr "")
      (Some (PStr " ")) !! "last_name" = Some (PStr (spaces 1)).
Proof.
  split; [vm_compute; reflexivity|]. split; [vm_compute; reflexivity|].
  apply (spaces_only_name grace_env (PDict (named (PStr "  ")))
           [] [grace_emails_url] 1); vm_compute; reflexivity.
Defined.

(** C6, as stated, fails: for a display name of two spaces [last_name]
    is a space, not the empty string. *)
Lemma two_spaces_last_name :
  get_user_details grace_env (PDict (named (PStr "  "))) []
  = (Ok (details_of (PStr "grace") (PStr "grace@x.com") (PStr "")
           (Some (PStr " "))),
     [grace_emails_url])
  ∧ details_of (PStr "grace") (PStr "grace@x.com") (PStr "")
      (Some (PStr " ")) !! "last_name" = Some (PStr " ")
  ∧ PStr " " ≠ PStr "".
Proof. repeat split; try (vm_compute; reflexivity). discriminate. Qed.

(** C10.  The details have a [last_name] key exactly when the display
    name has a space character; for a name without one, the empty name
    of an absent [display_name] included, there is no such key. *)
Theorem last_name_iff_space (E : Env) (response : pyval) (h h' : list string)
    (s : string) (details : gmap string pyval) :
  display_name response = Ok (PStr s) →
  get_user_details E response h = (Ok details, h') →
  (is_Some (details !! "last_name") ↔ str_contains " " s = true)
  ∧ (str_contains " " s = false → "last_name" ∉ dom details).
Proof.
  intros Hname Hrun.
  destruct (get_user_details_ok _ _ _ _ _ _ Hname Hrun) as (u & e & ->).
  rewrite not_elem_of_dom, details_of_last_name.
  destruct (split_once_cases " " s) as [[Hs ->]|(a & b & _ & _ & Hs & ->)];
    rewrite Hs.
  - split; [|done]. split; [by intros [? ?]|done].
  - split; [|done]. split; [done|by eexists].
Qed.

Lemma last_name_iff_space_witness :
  display_name (PDict (delete "display_name" grace_profile)) = Ok (PStr "")
  ∧ get_user_details grace_env (PDict (delete "display_name" grace_profile)) []
    = (Ok (details_of (PStr "grace") (PStr "grace@x.com") (PStr "") None),
       [grace_emails_url])
  ∧ (is_Some (details_of (PStr "grace") (PStr "grace@x.com") (PStr "") None
              !! "last_name")
     ↔ str_contains " " "" = true)
  ∧ (str_contains " " "" = false →
     "last_name" ∉ dom (details_of (PStr "grace") (PStr "grace@x.com") (PStr "") None)).
Proof.
  split; [vm_compute; reflexivity|]. split; [vm_compute; reflexivity|].
  apply (last_name_iff_space grace_env
           (PDict (delete "display_name" grace_profile)) [] [grace_emails_url] "");
    vm_compute; reflexivity.
Defined.

(** ** Determinism *)

(** C9.  [get_user_details] is a function of the raw profile and of the
    outcome of its one request: at two moments at which the provider
    answers the emails request alike, two calls on the same profile
    return the same details, or raise the same exception. *)
Theorem get_user_details_twice (E : Env) (response : pyval)
    (h1 h2 : list string) :
  (∀ tok, py_get response "access_token" PNone = Ok tok →
          respond E h1 (emails_url E tok) = respond E h2 (emails_url E tok)) →
  (get_user_details E response h1).1 = (get_user_details E response h2).1.
Proof.
  intros Hsame. destruct response as [| | | | |m]; try reflexivity.
  rewrite !get_user_details_dict, !fetch_primary_email_unfold.
  rewrite (Hsame (default PNone (m !! "access_token"))) by done.
  destruct (respond E h2 _ ≫= simplejson_load E) as [data|e].
  - by destruct (_ ≫= _).
  - by destruct (handles _ e).
Qed.

Lemma get_user_details_twice_witness :
  (∀ tok, py_get (PDict grace_profile) "access_token" PNone = Ok tok →
          respond grace_env [] (emails_url grace_env tok)
          = respond grace_env [grace_emails_url] (emails_url grace_env tok))
  ∧ (get_user_details grace_env (PDict grace_profile) []).1
    = (get_user_details grace_env (PDict grace_profile) [grace_emails_url]).1.
Proof.
  split; [reflexivity|].
  apply (get_user_details_twice grace_env (PDict grace_profile)
           [] [grace_emails_url]).
  reflexivity.
Defined.

(** With a provider that answers the second emails request differently
    the two calls differ, in the email. *)
Example second_call_differs :
  get_user_details (once_env (Ok grace_emails)) (PDict grace_profile) []
  = (Ok (details_of (PStr "grace") (PStr "grace@x.com") (PStr "Grace")
           (Some (PStr "Hopper"))),
     [grace_emails_url])
  ∧ get_user_details (once_env (Ok grace_emails)) (PDict grace_profile)
      [grace_emails_url]
    = (Ok (details_of (PStr "grace") (PStr "") (PStr "Grace")
             (Some (PStr "Hopper"))),
       [grace_emails_url; grace_emails_url]).
Proof. split; vm_compute; reflexivity. Qed.

(** ** The request URLs *)

Lemma str_replace_app (a b : ascii) (s t : string) :
  str_replace a b (s +:+ t) = str_replace a b s +:+ str_replace a b t.
Proof.
  induction s as [|c r IH]; [done|].
  rewrite app_String. simpl. by rewrite IH.
Qed.

Lemma quote_space_char (c : ascii) :
  str_replace " " "+"
    (if always_safe c || str_contains c " " then String c "" else percent c)
  = quote_plus_char c.
Proof. each_byte c; reflexivity. Qed.

Lemma quote_with_space (s : string) :
  str_replace " " "+" (quote " " s) = quote_plus_chars s.
Proof.
  induction s as [|c r IH]; [done|].
  simpl. by rewrite str_replace_app, quote_space_char, IH.
Qed.

Lemma quote_without_space (s : string) :
  str_contains " " s = false → quote "" s = quote_plus_chars s.
Proof.
  induction s as [|c r IH]; [done|]. simpl.
  intros [Hc Hr]%orb_false_iff. rewrite (IH Hr). f_equal.
  unfold quote_plus_char. rewrite orb_false_r, Hc. done.
Qed.

(** [quote_plus] works byte by byte. *)
Lemma quote_plus_bytewise (s : string) : quote_plus s = quote_plus_chars s.
Proof.
  unfold quote_plus. destruct (str_contains " " s) eqn:Hs.
  - apply quote_with_space.
  - by apply quote_without_space.
Qed.

Lemma quote_plus_safe (s : string) :
  str_forall always_safe s = true → quote_plus s = s.
Proof.
  rewrite quote_plus_bytewise.
  induction s as [|c r IH]; [done|]. simpl.
  intros [Hc Hr]%andb_true_iff. unfold quote_plus_char.
  by rewrite Hc, (IH Hr).
Qed.

Lemma unquote_plus_char (c : ascii) (t : string) :
  unquote_plus (quote_plus_char c +:+ t) = String c (unquote_plus t).
Proof. each_byte c; reflexivity. Qed.

Lemma unquote_plus_chars (s : string) : unquote_plus (quote_plus_chars s) = s.
Proof.
  induction s as [|c r IH]; [done|].
  simpl. by rewrite unquote_plus_char, IH.
Qed.

(** Decoding undoes [quote_plus]. *)
Lemma unquote_quote_plus (s : string) : unquote_plus (quote_plus s) = s.
Proof. rewrite quote_plus_bytewise. apply unquote_plus_chars. Qed.

Lemma quote_plus_char_no_amp (c : ascii) :
  str_contains "&" (quote_plus_char c) = false.
Proof. each_byte c; reflexivity. Qed.

Lemma quote_plus_char_no_eq (c : ascii) :
  str_contains "=" (quote_plus_char c) = false.
Proof. each_byte c; reflexivity. Qed.

(** The output of [quote_plus] has no [&] and no [=]. *)
Lemma quote_plus_no_amp (s : string) : str_contains "&" (quote_plus s) = false.
Proof.
  rewrite quote_plus_bytewise.
  induction s as [|c r IH]; [done|].
  simpl. by rewrite str_contains_app, quote_plus_char_no_amp, IH.
Qed.

Lemma quote_plus_no_eq (s : string) : str_contains "=" (quote_plus s) = false.
Proof.
  rewrite quote_plus_bytewise.
  induction s as [|c r IH]; [done|].
  simpl. by rewrite str_contains_app, quote_plus_char_no_eq, IH.
Qed.

Lemma query_field_quoted (k v : string) :
  query_field (quote_plus k +:+ "=" +:+ quote_plus v) = Some (k, v).
Proof.
  unfold query_field. change ("=" +:+ quote_plus v) with (String "=" (quote_plus v)).
  rewrite bool_decide_eq_false_2 by (by destruct (quote_plus k)).
  rewrite (str_split_at_sep "=" (Some 1)) by (done || apply quote_plus_no_eq).
  simpl. by rewrite str_split_zero, !unquote_quote_plus.
Qed.

Lemma quoted_field_no_amp (k v : string) :
  str_contains "&" (quote_plus k +:+ "=" +:+ quote_plus v) = false.
Proof. by rewrite !str_contains_app, !quote_plus_no_amp. Qed.

(** Reading back the query string that [urlencode] wrote gives the
    names and the values, in order. *)
Lemma query_params_urlencode (E : Env) (query : list (string * pyval)) :
  query_params (urlencode E query) = (λ kv, (kv.1, py_str E kv.2)) <$> query.
Proof.
  unfold query_params, urlencode.
  induction query as [|[k v] [|kv' rest] IH].
  - reflexivity.
  - simpl. rewrite str_split_no_sep by apply quoted_field_no_amp.
    simpl. by rewrite query_field_quoted.
  - change (str_join "&" ((λ kv, quote_plus kv.1 +:+ "=" +:+ quote_plus (py_str E kv.2))
                            <$> (k, v) :: kv' :: rest))
      with ((quote_plus k +:+ "=" +:+ quote_plus (py_str E v)) +:+
            String "&" (str_join "&"
              ((λ kv, quote_plus kv.1 +:+ "=" +:+ quote_plus (py_str E kv.2))
                 <$> kv' :: rest))).
    rewrite (str_split_at_sep "&" None) by (done || apply quoted_field_no_amp).
    change (omap query_field (?x :: ?l)) with
      (match query_field x with Some y => y :: omap query_field l
                              | None => omap query_field l end).
    rewrite query_field_quoted. simpl in IH |- *. by rewrite IH.
Qed.

Lemma url_query_after (base q : string) :
  str_contains "?" base = false → url_query (base +:+ String "?" q) = q.
Proof.
  intros Hbase. unfold url_query.
  rewrite (str_split_at_sep "?" (Some 1)) by done.
  simpl. by rewrite str_split_zero.
Qed.

(** C8.  For every access token [t], [user_data] issues one request, a
    GET of the user data URL with the query parameters [fields=-links]
    and [access_token=t], and [_fetch_primary_email] issues one request,
    a GET of the user data URL followed by [/emails], with the query
    parameters [fields=-values.links], [pagelen=100] and
    [access_token=t], in this order.  The token is written by
    [quote_plus], which leaves a token of letters, digits and [_.-~] as
    it is. *)
Theorem request_urls (E : Env) (t : string) (h : list string) :
  (user_data_url E (PStr t)
   = BITBUCKET_USER_DATA_URL +:+ "?fields=-links&access_token=" +:+ quote_plus t
   ∧ query_params (url_query (user_data_url E (PStr t)))
     = [("fields", "-links"); ("access_token", t)]
   ∧ (user_data E (PStr t) h).2 = (h ++ [user_data_url E (PStr t)])%list)
  ∧ (emails_url E (PStr t)
     = BITBUCKET_USER_DATA_URL
       +:+ "/emails?fields=-values.links&pagelen=100&access_token="
       +:+ quote_plus t
     ∧ query_params (url_query (emails_url E (PStr t)))
       = [("fields", "-values.links"); ("pagelen", "100"); ("access_token", t)]
     ∧ (_fetch_primary_email E (PStr t) h).2
       = (h ++ [emails_url E (PStr t)])%list)
  ∧ (str_forall always_safe t = true → quote_plus t = t).
Proof.
  split; [|split].
  - split; [reflexivity|]. split.
    + unfold user_data_url.
      change ("?" +:+ ?x) with (String "?" x).
      rewrite url_query_after by reflexivity.
      by rewrite query_params_urlencode.
    + by rewrite user_data_unfold.
  - split; [reflexivity|]. split.
    + unfold emails_url.
      change (BITBUCKET_USER_DATA_URL +:+ "/emails?" +:+ ?x)
        with ((BITBUCKET_USER_DATA_URL +:+ "/emails") +:+ String "?" x).
      rewrite url_query_after by reflexivity.
      by rewrite query_params_urlencode.
    + by rewrite fetch_primary_email_unfold.
  - apply quote_plus_safe.
Qed.

Lemma request_urls_witness :
  str_forall always_safe "s3cr3t" = true
  ∧ user_data_url grace_env (PStr "s3cr3t")
    = "https://bitbucket.org/api/2.0/user/?fields=-links&access_token=s3cr3t"
  ∧ emails_url grace_env (PStr "s3cr3t") = grace_emails_url
  ∧ quote_plus "s3cr3t" = "s3cr3t".
Proof.
  split; [reflexivity|]. split; [vm_compute; reflexivity|].
  split; [vm_compute; reflexivity|].
  apply (request_urls grace_env "s3cr3t" []). reflexivity.
Defined.

(** A token with reserved characters is escaped in the URL and read
    back unchanged from its query string. *)
Example reserved_token :
  user_data_url grace_env (PStr "a b&c=d")
  = "https://bitbucket.org/api/2.0/user/?fields=-links&access_token=a+b%26c%3Dd"
  ∧ query_params (url_query (user_data_url grace_env (PStr "a b&c=d")))
    = [("fields", "-links"); ("access_token", "a b&c=d")].
Proof. split; vm_compute; reflexivity. Qed.

(** * Further properties of the module *)

(** ** [_fetch_primary_email] at the edges *)

Lemma scan_emails_skip (pre rest : list pyval) :
  forallb not_primary pre = true →
  scan_emails (pre ++ rest) = scan_emails rest.
Proof.
  induction pre as [|v pre IH]; [done|]. simpl.
  intros [Hv Hpre]%andb_true_iff.
  destruct v as [| | | | |m]; try done. simpl in Hv |- *.
  apply negb_true_iff in Hv. rewrite Hv. by apply IH.
Qed.

Lemma fetch_primary_email_values (E : Env) (tok : pyval) (h : list string)
    (d : gmap string pyval) :
  fetched E (emails_url E tok) h = Ok (PDict d) →
  _fetch_primary_email E tok h
  = (py_iter (default (PList []) (d !! "values")) ≫= scan_emails,
     (h ++ [emails_url E tok])%list).
Proof.
  intros Hf. unfold fetched in Hf.
  rewrite fetch_primary_email_unfold, Hf. reflexivity.
Qed.

(** X1.  The loop stops at the first item whose [is_primary] is true in
    the sense of [if] (a boolean or not) and returns its [email], or
    the empty string when it has none; the items after it are not
    looked at, whatever they are. *)
Theorem fetch_primary_email_stops_at_first (E : Env) (tok : pyval)
    (h : list string) (d p : gmap string pyval) (pre rest : list pyval) :
  fetched E (emails_url E tok) h = Ok (PDict d) →
  d !! "values" = Some (PList (pre ++ PDict p :: rest)) →
  forallb not_primary pre = true →
  truthy (default (PBool false) (p !! "is_primary")) = true →
  _fetch_primary_email E tok h
  = (Ok (default (PStr "") (p !! "email")), (h ++ [emails_url E tok])%list).
Proof.
  intros Hf Hvalues Hpre Hp.
  rewrite (fetch_primary_email_values _ _ _ _ Hf), Hvalues. simpl.
  rewrite (scan_emails_skip _ _ Hpre). simpl. by rewrite Hp.
Qed.

Lemma fetch_primary_email_stops_at_first_witness :
  fetched (const_env (Ok "page") (Ok (emails_page mixed_records)))
    (emails_url (const_env (Ok "page") (Ok (emails_page mixed_records)))
       (PStr "s3cr3t")) []
  = Ok (PDict {["values" := PList mixed_records]})
  ∧ ({["values" := PList mixed_records]} : gmap string pyval) !! "values"
    = Some (PList
        ([PDict {["email" := PStr "a@x.com"]};
          PDict (<["email" := PStr "b@x.com"]> {["is_primary" := PInt 0]})]
         ++ PDict {["is_primary" := PInt 1]}
            :: [PStr "oops"; email_record "c@x.com" true]))
  ∧ forallb not_primary
      [PDict {["email" := PStr "a@x.com"]};
       PDict (<["email" := PStr "b@x.com"]> {["is_primary" := PInt 0]})] = true
  ∧ truthy (default (PBool false)
              (({["is_primary" := PInt 1]} : gmap string pyval) !! "is_primary"))
    = true
  ∧ _fetch_primary_email (const_env (Ok "page") (Ok (emails_page mixed_records)))
      (PStr "s3cr3t") []
    = (Ok (PStr ""), [grace_emails_url]).
Proof.
  split; [reflexivity|]. split; [vm_compute; reflexivity|].
  split; [vm_compute; reflexivity|]. split; [vm_compute; reflexivity|].
  etrans;
    [apply (fetch_primary_email_stops_at_first
           (const_env (Ok "page") (Ok (emails_page mixed_records)))
           (PStr "s3cr3t") [] {["values" := PList mixed_records]}
           {["is_primary" := PInt 1]}
           [PDict {["email" := PStr "a@x.com"]};
            PDict (<["email" := PStr "b@x.com"]> {["is_primary" := PInt 0]})]
           [PStr "oops"; email_record "c@x.com" true])
    |]; vm_compute; reflexivity.
Defined.

(** X2.  When every item of [values] is a dict whose [is_primary] is
    absent or false, the empty list included, the result is the empty
    string. *)
Theorem fetch_primary_email_no_primary (E : Env) (tok : pyval)
    (h : list string) (d : gmap string pyval) (values : list pyval) :
  fetched E (emails_url E tok) h = Ok (PDict d) →
  d !! "values" = Some (PList values) →
  forallb not_primary values = true →
  _fetch_primary_email E tok h
  = (Ok (PStr ""), (h ++ [emails_url E tok])%list).
Proof.
  intros Hf Hvalues Hnone.
  rewrite (fetch_primary_email_values _ _ _ _ Hf), Hvalues. simpl.
  rewrite <- (app_nil_r values). by rewrite (scan_emails_skip _ _ Hnone).
Qed.

Lemma fetch_primary_email_no_primary_witness :
  fetched (const_env (Ok "page")
             (Ok (emails_page [email_record "g@x.com" false;
                               PDict {["email" := PStr "a@x.com"]}])))
    (emails_url (const_env (Ok "page")
                   (Ok (emails_page [email_record "g@x.com" false;
                                     PDict {["email" := PStr "a@x.com"]}])))
       (PStr "s3cr3t")) []
  = Ok (PDict {["values" := PList [email_record "g@x.com" false;
                                   PDict {["email" := PStr "a@x.com"]}]]})
  ∧ ({["values" := PList [email_record "g@x.com" false;
                          PDict {["email" := PStr "a@x.com"]}]]}
       : gmap string pyval) !! "values"
    = Some (PList [email_record "g@x.com" false;
                   PDict {["email" := PStr "a@x.com"]}])
  ∧ forallb not_primary [email_record "g@x.com" false;
                         PDict {["email" := PStr "a@x.com"]}] = true
  ∧ _fetch_primary_email
      (const_env (Ok "page")
         (Ok (emails_page [email_record "g@x.com" false;
                           PDict {["email" := PStr "a@x.com"]}])))
      (PStr "s3cr3t") []
    = (Ok (PStr ""), [grace_emails_url]).
Proof.
  split; [reflexivity|]. split; [vm_compute; reflexivity|].
  split; [vm_compute; reflexivity|].
  apply (fetch_primary_email_no_primary _ (PStr "s3cr3t") []
           {["values" := PList [email_record "g@x.com" false;
                                PDict {["email" := PStr "a@x.com"]}]]}
           [email_record "g@x.com" false; PDict {["email" := PStr "a@x.com"]}]);
    vm_compute; reflexivity.
Defined.

(** X3.  A decoded page without a [values] key counts as a page without
    emails: the result is the empty string. *)
Theorem fetch_primary_email_no_values (E : Env) (tok : pyval)
    (h : list string) (d : gmap string pyval) :
  fetched E (emails_url E tok) h = Ok (PDict d) →
  d !! "values" = None →
  _fetch_primary_email E tok h
  = (Ok (PStr ""), (h ++ [emails_url E tok])%list).
Proof.
  intros Hf Hvalues.
  by rewrite (fetch_primary_email_values _ _ _ _ Hf), Hvalues.
Qed.

Lemma fetch_primary_email_no_values_witness :
  fetched (const_env (Ok "page") (Ok (PDict {["pagelen" := PInt 100]})))
    (emails_url (const_env (Ok "page") (Ok (PDict {["pagelen" := PInt 100]})))
       (PStr "s3cr3t")) []
  = Ok (PDict {["pagelen" := PInt 100]})
  ∧ ({["pagelen" := PInt 100]} : gmap string pyval) !! "values" = None
  ∧ _fetch_primary_email
      (const_env (Ok "page") (Ok (PDict {["pagelen" := PInt 100]})))
      (PStr "s3cr3t") []
    = (Ok (PStr ""), [grace_emails_url]).
Proof.
  split; [reflexivity|]. split; [vm_compute; reflexivity|].
  apply (fetch_primary_email_no_values _ (PStr "s3cr3t") []
           {["pagelen" := PInt 100]}); vm_compute; reflexivity.
Defined.

(** X4.  An item that is not a dict, met before any primary record,
    makes the call fail with [AttributeError]: the handler of the
    request does not cover the loop. *)
Theorem fetch_primary_email_bad_item (E : Env) (tok : pyval)
    (h : list string) (d : gmap string pyval) (pre rest : list pyval)
    (v : pyval) :
  fetched E (emails_url E tok) h = Ok (PDict d) →
  d !! "values" = Some (PList (pre ++ v :: rest)) →
  forallb not_primary pre = true →
  is_dict v = false →
  _fetch_primary_email E tok h
  = (Raise AttributeError, (h ++ [emails_url E tok])%list).
Proof.
  intros Hf Hvalues Hpre Hv.
  rewrite (fetch_primary_email_values _ _ _ _ Hf), Hvalues. simpl.
  rewrite (scan_emails_skip _ _ Hpre). by destruct v.
Qed.

Lemma fetch_primary_email_bad_item_witness :
  fetched (const_env (Ok "page")
             (Ok (emails_page [email_record "g@x.com" false; PNone;
                               email_record "grace@x.com" true])))
    (emails_url (const_env (Ok "page")
                   (Ok (emails_page [email_record "g@x.com" false; PNone;
                                     email_record "grace@x.com" true])))
       (PStr "s3cr3t")) []
  = Ok (PDict {["values" := PList [email_record "g@x.com" false; PNone;
                                   email_record "grace@x.com" true]]})
  ∧ ({["values" := PList [email_record "g@x.com" false; PNone;
                          email_record "grace@x.com" true]]}
       : gmap string pyval) !! "values"
    = Some (PList ([email_record "g@x.com" false]
                   ++ PNone :: [email_record "grace@x.com" true]))
  ∧ forallb not_primary [email_record "g@x.com" false] = true
  ∧ is_dict PNone = false
  ∧ _fetch_primary_email
      (const_env (Ok "page")
         (Ok (emails_page [email_record "g@x.com" false; PNone;
                           email_record "grace@x.com" true])))
      (PStr "s3cr3t") []
    = (Raise AttributeError, [grace_emails_url]).
Proof.
  split; [reflexivity|]. split; [vm_compute; reflexivity|].
  split; [vm_compute; reflexivity|]. split; [reflexivity|].
  apply (fetch_primary_email_bad_item _ (PStr "s3cr3t") []
           {["values" := PList [email_record "g@x.com" false; PNone;
                                email_record "grace@x.com" true]]}
           [email_record "g@x.com" false] [email_record "grace@x.com" true] PNone);
    vm_compute; reflexivity.
Defined.

(** X5.  A body that is JSON but not an object (a list, a string, a
    number, [null]) is not a parse failure: [.get] fails on it with
    [AttributeError], which the handler does not cover, and the error
    leaves [_fetch_primary_email]. *)
Theorem fetch_primary_email_body_not_object (E : Env) (tok : pyval)
    (h : list string) (data : pyval) :
  fetched E (emails_url E tok) h = Ok data →
  is_dict data = false →
  _fetch_primary_email E tok h
  = (Raise AttributeError, (h ++ [emails_url E tok])%list).
Proof.
  intros Hf Hd. unfold fetched in Hf.
  rewrite fetch_primary_email_unfold, Hf. by destruct data.
Qed.

Lemma fetch_primary_email_body_not_object_witness :
  fetched (page_env (PList grace_records))
    (emails_url (page_env (PList grace_records)) (PStr "s3cr3t")) []
  = Ok (PList grace_records)
  ∧ is_dict (PList grace_records) = false
  ∧ _fetch_primary_email (page_env (PList grace_records)) (PStr "s3cr3t") []
    = (Raise AttributeError, [grace_emails_url]).
Proof.
  split; [reflexivity|]. split; [reflexivity|].
  apply (fetch_primary_email_body_not_object (page_env (PList grace_records))
           (PStr "s3cr3t") [] (PList grace_records)); reflexivity.
Defined.

(** X6.  When [values] is present and is [null], a boolean or a number,
    the loop cannot iterate over it and the call fails with
    [TypeError]; the default [[]] only stands in for an absent key. *)
Theorem fetch_primary_email_values_not_iterable (E : Env) (tok : pyval)
    (h : list string) (d : gmap string pyval) (v : pyval) :
  fetched E (emails_url E tok) h = Ok (PDict d) →
  d !! "values" = Some v →
  iterable v = false →
  _fetch_primary_email E tok h
  = (Raise TypeError, (h ++ [emails_url E tok])%list).
Proof.
  intros Hf Hvalues Hv.
  rewrite (fetch_primary_email_values _ _ _ _ Hf), Hvalues. by destruct v.
Qed.

Lemma fetch_primary_email_values_not_iterable_witness :
  fetched (page_env (PDict {["values" := PNone]}))
    (emails_url (page_env (PDict {["values" := PNone]})) (PStr "s3cr3t")) []
  = Ok (PDict {["values" := PNone]})
  ∧ ({["values" := PNone]} : gmap string pyval) !! "values" = Some PNone
  ∧ iterable PNone = false
  ∧ _fetch_primary_email (page_env (PDict {["values" := PNone]}))
      (PStr "s3cr3t") []
    = (Raise TypeError, [grace_emails_url]).
Proof.
  split; [reflexivity|]. split; [vm_compute; reflexivity|].
  split; [reflexivity|].
  apply (fetch_primary_email_values_not_iterable
           (page_env (PDict {["values" := PNone]})) (PStr "s3cr3t") []
           {["values" := PNone]} PNone); vm_compute; reflexivity.
Defined.



(** ** [user_data] at the edges *)

(** X8.  [user_data] only covers [ValueError]: a failure of the request
    or of the decoder with an exception of another class, an
    [HTTPError] among them, leaves it, where [_fetch_primary_email]
    would have returned the empty string for an [HTTPError]. *)
Theorem user_data_propagates (E : Env) (tok : pyval) (h : list string)
    (e : exn) :
  fetched E (user_data_url E tok) h = Raise e →
  isinstance e ValueError = false →
  user_data E tok h = (Raise e, (h ++ [user_data_url E tok])%list).
Proof.
  intros Hf He. unfold fetched in Hf.
  by rewrite user_data_unfold, Hf, handles_value, He.
Qed.

Lemma user_data_propagates_witness :
  fetched (failing_env HTTPError)
    (user_data_url (failing_env HTTPError) (PStr "s3cr3t")) []
  = Raise HTTPError
  ∧ isinstance HTTPError ValueError = false
  ∧ user_data (failing_env HTTPError) (PStr "s3cr3t") []
    = (Raise HTTPError, [grace_user_data_url])
  ∧ _fetch_primary_email (failing_env HTTPError) (PStr "s3cr3t") []
    = (Ok (PStr ""), [grace_emails_url]).
Proof.
  split; [reflexivity|]. split; [reflexivity|].
  split; [|vm_compute; reflexivity].
  apply (user_data_propagates (failing_env HTTPError) (PStr "s3cr3t") []
           HTTPError); reflexivity.
Defined.


(** ** [get_user_details]: what it needs and what it builds *)

Lemma display_name_dict (m : gmap string pyval) :
  display_name (PDict m)
  = Ok (py_or (default PNone (m !! "display_name")) (PStr "")).
Proof. reflexivity. Qed.

Lemma get_user_details_run (E : Env) (m : gmap string pyval)
    (h h' : list string) (email : pyval) (s : string) :
  _fetch_primary_email E (token_of m) h = (Ok email, h') →
  display_name (PDict m) = Ok (PStr s) →
  get_user_details E (PDict m) h
  = (Ok (details_of (default PNone (m !! "username")) email
           (PStr (match str_split " " (Some 1) s with [a; _] => a | _ => s end))
           (match str_split " " (Some 1) s with
            | [_; b] => Some (PStr b) | _ => None end)),
     h').
Proof.
  unfold token_of. intros Hfetch Hname.
  rewrite display_name_dict in Hname. injection Hname as Hname.
  rewrite get_user_details_dict, Hfetch, Hname, split_name_str.
  by destruct (str_split " " (Some 1) s) as [|a [|b [|c l]]].
Qed.

Lemma details_of_username (u e f : pyval) (l : option pyval) :
  details_of u e f l !! "username" = Some u.
Proof. destruct l; by simplify_map_eq. Qed.

Lemma details_of_email (u e f : pyval) (l : option pyval) :
  details_of u e f l !! "email" = Some e.
Proof. destruct l; by simplify_map_eq. Qed.

Lemma details_of_dom (u e f : pyval) (l : option pyval) :
  dom (details_of u e f l)
  = ({["username"; "email"; "first_name"]} : gset string)
    ∪ (match l with Some _ => {["last_name"]} | None => ∅ end).
Proof.
  unfold details_of. destruct l; rewrite !dom_insert_L, dom_singleton_L;
    set_solver.
Qed.

(** X10.  On a profile dict whose display name is a string, or is
    absent, [get_user_details] returns details whenever the email fetch
    returns: no key of the profile is required.  [username] is the
    profile's, [None] when the profile has none, and [email] is what the
    fetch returned. *)
Theorem get_user_details_succeeds (E : Env) (m : gmap string pyval)
    (h h' : list string) (email : pyval) (s : string) :
  _fetch_primary_email E (token_of m) h = (Ok email, h') →
  display_name (PDict m) = Ok (PStr s) →
  ∃ details,
    get_user_details E (PDict m) h = (Ok details, h')
    ∧ details !! "username" = Some (default PNone (m !! "username"))
    ∧ details !! "email" = Some email.
Proof.
  intros Hfetch Hname. eexists. split.
  - by apply get_user_details_run.
  - by rewrite details_of_username, details_of_email.
Qed.

Lemma get_user_details_succeeds_witness :
  _fetch_primary_email grace_env (token_of ∅) [] = (Ok (PStr "grace@x.com"),
    ["https://bitbucket.org/api/2.0/user//emails?fields=-values.links&pagelen=100&access_token=None"])
  ∧ display_name (PDict ∅) = Ok (PStr "")
  ∧ ∃ details,
      get_user_details grace_env (PDict ∅) []
      = (Ok details,
         ["https://bitbucket.org/api/2.0/user//emails?fields=-values.links&pagelen=100&access_token=None"])
      ∧ details !! "username" = Some (default PNone ((∅ : gmap string pyval) !! "username"))
      ∧ details !! "email" = Some (PStr "grace@x.com").
Proof.
  split; [vm_compute; reflexivity|]. split; [reflexivity|].
  apply (get_user_details_succeeds grace_env ∅ [] _ (PStr "grace@x.com") "");
    [vm_compute; reflexivity|reflexivity].
Defined.

(** X11.  The keys of the details are [username], [email] and
    [first_name], and [last_name] besides when the display name has a
    space; there is no other key. *)
Theorem details_keys (E : Env) (response : pyval) (h h' : list string)
    (s : string) (details : gmap string pyval) :
  display_name response = Ok (PStr s) →
  get_user_details E response h = (Ok details, h') →
  dom details
  = ({["username"; "email"; "first_name"]} : gset string)
    ∪ (if str_contains " " s then {["last_name"]} else ∅).
Proof.
  intros Hname Hrun.
  destruct (get_user_details_ok _ _ _ _ _ _ Hname Hrun) as (u & e & ->).
  rewrite details_of_dom.
  by destruct (split_once_cases " " s) as [[Hs ->]|(a & b & _ & _ & Hs & ->)];
    rewrite Hs.
Qed.

Lemma details_keys_witness :
  display_name (PDict grace_profile) = Ok (PStr "Grace Hopper")
  ∧ get_user_details grace_env (PDict grace_profile) []
    = (Ok (details_of (PStr "grace") (PStr "grace@x.com") (PStr "Grace")
             (Some (PStr "Hopper"))),
       [grace_emails_url])
  ∧ dom (details_of (PStr "grace") (PStr "grace@x.com") (PStr "Grace")
           (Some (PStr "Hopper")))
    = ({["username"; "email"; "first_name"]} : gset string)
      ∪ (if str_contains " " "Grace Hopper" then {["last_name"]} else ∅).
Proof.
  split; [vm_compute; reflexivity|]. split; [vm_compute; reflexivity|].
  apply (details_keys grace_env (PDict grace_profile) [] [grace_emails_url]
           "Grace Hopper"); vm_compute; reflexivity.
Defined.

(** X12.  Nothing of the display name is lost: [first_name] has no
    space, and [first_name], followed by a space and [last_name] when
    there is a [last_name], is the display name again. *)
Theorem full_name_restored (E : Env) (response : pyval) (h h' : list string)
    (s : string) (details : gmap string pyval) :
  display_name response = Ok (PStr s) →
  get_user_details E response h = (Ok details, h') →
  full_name details = Some s
  ∧ ∃ f, details !! "first_name" = Some (PStr f) ∧ str_contains " " f = false.
Proof.
  intros Hname Hrun.
  destruct (get_user_details_ok _ _ _ _ _ _ Hname Hrun) as (u & e & ->).
  unfold full_name. rewrite details_of_first_name, details_of_last_name.
  destruct (split_once_cases " " s) as [[Hs ->]|(a & b & -> & Ha & _ & ->)].
  - split; [done|]. by exists s.
  - split; [done|]. by exists a.
Qed.

Lemma full_name_restored_witness :
  display_name (PDict (named (PStr "Ada  Lovelace"))) = Ok (PStr "Ada  Lovelace")
  ∧ get_user_details grace_env (PDict (named (PStr "Ada  Lovelace"))) []
    = (Ok (details_of (PStr "grace") (PStr "grace@x.com") (PStr "Ada")
             (Some (PStr " Lovelace"))),
       [grace_emails_url])
  ∧ full_name (details_of (PStr "grace") (PStr "grace@x.com") (PStr "Ada")
                 (Some (PStr " Lovelace")))
    = Some "Ada  Lovelace"
  ∧ ∃ f, details_of (PStr "grace") (PStr "grace@x.com") (PStr "Ada")
           (Some (PStr " Lovelace")) !! "first_name" = Some (PStr f)
         ∧ str_contains " " f = false.
Proof.
  split; [vm_compute; reflexivity|]. split; [vm_compute; reflexivity|].
  apply (full_name_restored grace_env (PDict (named (PStr "Ada  Lovelace")))
           [] [grace_emails_url] "Ada  Lovelace"); vm_compute; reflexivity.
Defined.

(** ** [get_user_details]: how it fails *)

(** X13.  A display name that is neither a string nor empty in the
    sense of [or] (a number, a list, an object) has no [split]: the
    call fails with [AttributeError], and only after the emails request
    has been made. *)
Theorem display_name_not_str (E : Env) (m : gmap string pyval)
    (h h' : list string) (v email : pyval) :
  m !! "display_name" = Some v →
  truthy v = true →
  is_str v = false →
  _fetch_primary_email E (token_of m) h = (Ok email, h') →
  get_user_details E (PDict m) h = (Raise AttributeError, h').
Proof.
  unfold token_of. intros Hv Htruthy Hstr Hfetch.
  rewrite get_user_details_dict, Hfetch, Hv. simpl.
  unfold py_or. rewrite Htruthy.
  rewrite split_name_not_str; [done|]. intros s ->. done.
Qed.

Lemma display_name_not_str_witness :
  named (PInt 7) !! "display_name" = Some (PInt 7)
  ∧ truthy (PInt 7) = true
  ∧ is_str (PInt 7) = false
  ∧ _fetch_primary_email grace_env (token_of (named (PInt 7))) []
    = (Ok (PStr "grace@x.com"), [grace_emails_url])
  ∧ get_user_details grace_env (PDict (named (PInt 7))) []
    = (Raise AttributeError, [grace_emails_url]).
Proof.
  split; [vm_compute; reflexivity|]. split; [reflexivity|].
  split; [reflexivity|]. split; [vm_compute; reflexivity|].
  apply (display_name_not_str grace_env (named (PInt 7)) [] [grace_emails_url]
           (PInt 7) (PStr "grace@x.com")); vm_compute; reflexivity.
Defined.

(** X14.  A response that is not a dict, such as the [None] that
    [user_data] returns for a body that is not JSON, makes
    [get_user_details] fail with [AttributeError] at its first line: no
    request is made. *)
Theorem get_user_details_needs_dict (E : Env) (response : pyval)
    (h : list string) :
  is_dict response = false →
  get_user_details E response h = (Raise AttributeError, h).
Proof. intros Hd. by destruct response. Qed.

Lemma get_user_details_needs_dict_witness :
  is_dict PNone = false
  ∧ user_data (const_env (Ok "<html>") (Raise JSONDecodeError)) (PStr "s3cr3t") []
    = (Ok PNone, [grace_user_data_url])
  ∧ get_user_details (const_env (Ok "<html>") (Raise JSONDecodeError)) PNone
      [grace_user_data_url]
    = (Raise AttributeError, [grace_user_data_url]).
Proof.
  split; [reflexivity|]. split; [vm_compute; reflexivity|].
  apply (get_user_details_needs_dict
           (const_env (Ok "<html>") (Raise JSONDecodeError)) PNone
           [grace_user_data_url]).
  reflexivity.
Defined.


(** X16.  A profile without [access_token] does not stop the emails
    request: it is sent with the token [None] written out. *)
Theorem missing_token_sent_as_None (E : Env) (m : gmap string pyval)
    (h : list string) :
  m !! "access_token" = None →
  (get_user_details E (PDict m) h).2
  = (h ++ ["https://bitbucket.org/api/2.0/user//emails?fields=-values.links&pagelen=100&access_token=None"])%list.
Proof.
  intros Hm. rewrite get_user_details_dict, fetch_primary_email_unfold, Hm.
  by destruct (match respond E h _ ≫= simplejson_load E with
               | Ok _ => _ | Raise _ => _ end).
Qed.

Lemma missing_token_sent_as_None_witness :
  delete "access_token" grace_profile !! "access_token" = None
  ∧ (get_user_details grace_env (PDict (delete "access_token" grace_profile)) []).2
    = ([] ++ ["https://bitbucket.org/api/2.0/user//emails?fields=-values.links&pagelen=100&access_token=None"])%list.
Proof.
  split; [vm_compute; reflexivity|].
  apply (missing_token_sent_as_None grace_env
           (delete "access_token" grace_profile) []).
  vm_compute; reflexivity.
Defined.

(** X17.  On a profile dict [get_user_details] fails for one of two
    reasons only: the email fetch failed, with the same exception, or
    the display name is a value other than a string and not empty, with
    [AttributeError].  A missing key is never the reason. *)
Theorem get_user_details_failure (E : Env) (m : gmap string pyval)
    (h h' : list string) (e : exn) :
  get_user_details E (PDict m) h = (Raise e, h') →
  _fetch_primary_email E (token_of m) h = (Raise e, h')
  ∨ (e = AttributeError
     ∧ ∃ v, m !! "display_name" = Some v ∧ truthy v = true ∧ is_str v = false).
Proof.
  unfold token_of. rewrite get_user_details_dict.
  destruct (_fetch_primary_email E _ h) as [[email|e'] h'']; [|left; congruence].
  intros [= Hsplit _]. right.
  assert (∀ s, py_or (default PNone (m !! "display_name")) (PStr "") ≠ PStr s)
    as Hname.
  { intros s Hs. rewrite Hs, split_name_str in Hsplit.
    by destruct (str_split " " (Some 1) s) as [|a [|b [|c l]]]. }
  rewrite split_name_not_str in Hsplit by done. injection Hsplit as <-.
  split; [done|].
  destruct (m !! "display_name") as [v|]; [|by destruct (Hname "")].
  exists v. split; [done|]. simpl in Hname. unfold py_or in Hname.
  destruct (truthy v); [|by destruct (Hname "")].
  split; [done|]. destruct v as [| | |s| |]; try done. by destruct (Hname s).
Qed.

Lemma get_user_details_failure_witness :
  get_user_details (failing_env URLError) (PDict grace_profile) []
  = (Raise URLError, [grace_emails_url])
  ∧ (_fetch_primary_email (failing_env URLError) (token_of grace_profile) []
     = (Raise URLError, [grace_emails_url])
     ∨ (URLError = AttributeError
        ∧ ∃ v, grace_profile !! "display_name" = Some v
               ∧ truthy v = true ∧ is_str v = false)).
Proof.
  split; [vm_compute; reflexivity|].
  apply (get_user_details_failure (failing_env URLError) grace_profile []
           [grace_emails_url] URLError).
  vm_compute; reflexivity.
Defined.

(** X18.  A display name that is present and empty in the sense of [or]
    ([null], the empty string, zero, [false], an empty list or object)
    is replaced by the empty string: [first_name] is the empty string,
    not the value, and there is no [last_name]. *)
Theorem display_name_falsy (E : Env) (m : gmap string pyval)
    (h h' : list string) (v : pyval) (details : gmap string pyval) :
  m !! "display_name" = Some v →
  truthy v = false →
  get_user_details E (PDict m) h = (Ok details, h') →
  details !! "first_name" = Some (PStr "")
  ∧ details !! "last_name" = None.
Proof.
  intros Hv Hfalsy Hrun.
  assert (display_name (PDict m) = Ok (PStr "")) as Hname.
  { rewrite display_name_dict, Hv. simpl. unfold py_or. by rewrite Hfalsy. }
  destruct (get_user_details_ok _ _ _ _ _ _ Hname Hrun) as (u & e & ->).
  by rewrite details_of_first_name, details_of_last_name.
Qed.

Lemma display_name_falsy_witness :
  named (PInt 0) !! "display_name" = Some (PInt 0)
  ∧ truthy (PInt 0) = false
  ∧ get_user_details grace_env (PDict (named (PInt 0))) []
    = (Ok (details_of (PStr "grace") (PStr "grace@x.com") (PStr "") None),
       [grace_emails_url])
  ∧ details_of (PStr "grace") (PStr "grace@x.com") (PStr "") None
      !! "first_name" = Some (PStr "")
  ∧ details_of (PStr "grace") (PStr "grace@x.com") (PStr "") None
      !! "last_name" = None.
Proof.
  split; [vm_compute; reflexivity|]. split; [reflexivity|].
  split; [vm_compute; reflexivity|].
  apply (display_name_falsy grace_env (named (PInt 0)) [] [grace_emails_url]
           (PInt 0)); vm_compute; reflexivity.
Defined.

(** X19.  When the emails request fails with an [HTTPError], or its
    body is not JSON, the details are built all the same, with the
    empty string for [email]. *)
Theorem get_user_details_without_email (E : Env) (m : gmap string pyval)
    (h : list string) (e : exn) (s : string) :
  fetched E (emails_url E (token_of m)) h = Raise e →
  isinstance e ValueError || isinstance e HTTPError = true →
  display_name (PDict m) = Ok (PStr s) →
  ∃ details,
    get_user_details E (PDict m) h
    = (Ok details, (h ++ [emails_url E (token_of m)])%list)
    ∧ details !! "email" = Some (PStr "").
Proof.
  intros Hf He Hname. eexists. split.
  - apply get_user_details_run; [|done]. unfold fetched in Hf.
    rewrite fetch_primary_email_unfold, Hf.
    by destruct e.
  - by rewrite details_of_email.
Qed.

Lemma get_user_details_without_email_witness :
  fetched (failing_env HTTPError)
    (emails_url (failing_env HTTPError) (token_of grace_profile)) []
  = Raise HTTPError
  ∧ isinstance HTTPError ValueError || isinstance HTTPError HTTPError = true
  ∧ display_name (PDict grace_profile) = Ok (PStr "Grace Hopper")
  ∧ ∃ details,
      get_user_details (failing_env HTTPError) (PDict grace_profile) []
      = (Ok details,
         ([] ++ [emails_url (failing_env HTTPError) (token_of grace_profile)])%list)
      ∧ details !! "email" = Some (PStr "").
Proof.
  split; [reflexivity|]. split; [reflexivity|]. split; [vm_compute; reflexivity|].
  apply (get_user_details_without_email (failing_env HTTPError) grace_profile []
           HTTPError "Grace Hopper"); [reflexivity|reflexivity|].
  vm_compute; reflexivity.
Defined.
